(** * Bouncing sphere extension: the integrator and its driver

    A shallow embedding of [exts/b.s.p/b/s/p/extension.py].  The extension
    object keeps five Python floats ([_height], [_velocity], [_gravity],
    [_time_step], [_elasticity]), a running flag, a handle on the asyncio
    task that drives the animation and handles on two prims of the USD
    stage.  The file has three layers:

    - [PyFloat]: the arithmetic the integrator uses, with two
      interpretations, exact rationals and IEEE binary64;
    - [Ext] and [run_simulation_step]: the object and lines 145-150 of
      [run_simulation];
    - [World], the [Py] monad and the event semantics: the button
      callbacks, the asyncio task pool and the stage. *)

From Stdlib Require Import QArith Qabs Lqa.
From Stdlib Require Import Floats.PrimFloat Numbers.Cyclic.Int63.Uint63.
From Stdlib Require Import Strings.Ascii.
From stdpp Require Import base gmap list strings.

Local Open Scope string_scope.

(** ** Arithmetic *)

(** The operations the source applies to its floats: [+], [*], unary [-],
    the comparison [<=] and numeric literals. *)
Class PyFloat (T : Type) := {
  fadd : T → T → T;
  fmul : T → T → T;
  fneg : T → T;
  fle : T → T → bool;
  flit : Q → T
}.

(** Exact arithmetic: the real-number reading of the fields. *)
#[export] Instance Q_float : PyFloat Q := {|
  fadd := Qplus; fmul := Qmult; fneg := Qopp; fle := Qle_bool; flit := λ q, q
|}.

(** Binary64, the arithmetic of CPython's [float].  A literal is the
    correctly rounded quotient of its numerator and denominator, both of
    which are exact in binary64 for every literal of the source. *)
Definition float_of_Q (q : Q) : float :=
  let den := PrimFloat.of_uint63 (Uint63.of_pos (Qden q)) in
  match Qnum q with
  | Z0 => PrimFloat.zero
  | Zpos n => PrimFloat.div (PrimFloat.of_uint63 (Uint63.of_pos n)) den
  | Zneg n => PrimFloat.opp (PrimFloat.div (PrimFloat.of_uint63 (Uint63.of_pos n)) den)
  end.

#[export] Instance binary64 : PyFloat float := {|
  fadd := PrimFloat.add; fmul := PrimFloat.mul; fneg := PrimFloat.opp;
  fle := PrimFloat.leb; flit := float_of_Q
|}.

(** ** The extension object *)

(** An instance attribute either exists or has never been assigned; reading
    one that was never assigned raises [AttributeError]. *)
Inductive attr (A : Type) : Type :=
| Unset
| Bound (a : A).
Arguments Unset {A}.
Arguments Bound {A} a.

(** Prims are named by their path on the stage. *)
Definition path := string.

Definition sphere_prim_path : path := "/World/bouncing_sphere".
Definition plane_prim_path : path := "/World/ground_plane".

(** [q] is [p] or lies below [p] in the namespace of the stage. *)
Definition below (p q : path) : Prop :=
  q = p ∨ String.prefix (p ++ "/")%string q = true.

#[export] Instance below_dec p q : Decision (below p q).
Proof. unfold below. apply _. Defined.

(** The paths of the prims above a path: ["/A"] and ["/A/B"] for
    ["/A/B/C"]. *)
Fixpoint ancestors_from (seen rest : string) : list path :=
  match rest with
  | EmptyString => []
  | String c rest' =>
      (match seen with
       | String _ _ => if Ascii.eqb c "/"%char then [seen] else []
       | EmptyString => []
       end ++ ancestors_from (seen ++ String c EmptyString)%string rest')%list
  end.
Definition ancestors (p : path) : list path := ancestors_from EmptyString p.

Section Extension.
Context {T : Type} `{PyFloat T}.

(** The text of the label: either the f-string of line 27/153, kept as the
    height it formats, or the fixed message of line 138. *)
Inductive label_text : Type :=
| HeightText (h : T)
| ResetText.

Record Ext : Type := mkExt {
  _running : bool;
  _height : T;
  _velocity : T;
  _gravity : T;
  _time_step : T;
  _elasticity : T;
  _timer : option nat;
  _sphere : option path;
  _plane : attr (option path);
  xform : attr path;
  _label : label_text
}.

Definition set_running (b : bool) (s : Ext) : Ext :=
  mkExt b (_height s) (_velocity s) (_gravity s) (_time_step s) (_elasticity s)
        (_timer s) (_sphere s) (_plane s) (xform s) (_label s).
Definition set_height (h : T) (s : Ext) : Ext :=
  mkExt (_running s) h (_velocity s) (_gravity s) (_time_step s) (_elasticity s)
        (_timer s) (_sphere s) (_plane s) (xform s) (_label s).
Definition set_velocity (v : T) (s : Ext) : Ext :=
  mkExt (_running s) (_height s) v (_gravity s) (_time_step s) (_elasticity s)
        (_timer s) (_sphere s) (_plane s) (xform s) (_label s).
Definition set_timer (t : option nat) (s : Ext) : Ext :=
  mkExt (_running s) (_height s) (_velocity s) (_gravity s) (_time_step s)
        (_elasticity s) t (_sphere s) (_plane s) (xform s) (_label s).
Definition set_sphere (p : option path) (s : Ext) : Ext :=
  mkExt (_running s) (_height s) (_velocity s) (_gravity s) (_time_step s)
        (_elasticity s) (_timer s) p (_plane s) (xform s) (_label s).
Definition set_plane (p : attr (option path)) (s : Ext) : Ext :=
  mkExt (_running s) (_height s) (_velocity s) (_gravity s) (_time_step s)
        (_elasticity s) (_timer s) (_sphere s) p (xform s) (_label s).
Definition set_xform (x : attr path) (s : Ext) : Ext :=
  mkExt (_running s) (_height s) (_velocity s) (_gravity s) (_time_step s)
        (_elasticity s) (_timer s) (_sphere s) (_plane s) x (_label s).
Definition set_label (l : label_text) (s : Ext) : Ext :=
  mkExt (_running s) (_height s) (_velocity s) (_gravity s) (_time_step s)
        (_elasticity s) (_timer s) (_sphere s) (_plane s) (xform s) l.

(** ** The integrator: lines 145-150 of [run_simulation]

    Four assignments to [self], in the order of the source.  [-h * e]
    parses as [(-h) * e]. *)
Definition run_simulation_step (s : Ext) : Ext :=
  let s := set_velocity (fadd (_velocity s) (fmul (_gravity s) (_time_step s))) s in
  let s := set_height (fadd (_height s) (fmul (_velocity s) (_time_step s))) s in
  if fle (_height s) (flit 0) then
    let s := set_height (fmul (fneg (_height s)) (_elasticity s)) s in
    let s := set_velocity (fmul (fneg (_velocity s)) (_elasticity s)) s in
    s
  else s.

(** The two intermediate values the specification calls [velocity'] and
    [height']. *)
Definition velocity' (s : Ext) : T :=
  fadd (_velocity s) (fmul (_gravity s) (_time_step s)).
Definition height' (s : Ext) : T :=
  fadd (_height s) (fmul (velocity' s) (_time_step s)).

(** The reflection branch of line 148 is taken. *)
Definition bounces (s : Ext) : bool := fle (height' s) (flit 0).

End Extension.

Arguments Ext T : clear implicits.
Arguments label_text T : clear implicits.

(** ** The world the callbacks run in *)

(** The program points at which the coroutine [run_simulation] can be
    found between two turns of the event loop. *)
Inductive coroutine : Type :=
| Created      (* scheduled by [ensure_future], body not entered yet *)
| Sleeping     (* suspended in [await asyncio.sleep], line 144 *)
| Finished     (* the [while] test was false: the coroutine returned *)
| Cancelled    (* [cancel()] reached it before it finished *)
| Failed.      (* an exception escaped the body *)

Definition alive (c : coroutine) : bool :=
  match c with
  | Created | Sleeping => true
  | Finished | Cancelled | Failed => false
  end.

(** Exceptions.  [AttributeError] is what Python raises on an attribute
    that was never assigned; [RuntimeError] is what the scene library
    raises when a call reaches a prim that is no longer on the stage;
    [InvalidArgument] is the error the specification names for a
    non-positive time step. *)
Inductive exn : Type :=
| AttributeError (name : string)
| RuntimeError
| InvalidArgument.

Inductive res (A : Type) : Type :=
| Normal (a : A)
| Raised (e : exn).
Arguments Normal {A} a.
Arguments Raised {A} e.

(** The stage is the set of paths that hold a prim.  Values authored on
    the prims (radius, points, colours, translation) are not tracked. *)
Record World (T : Type) : Type := mkWorld {
  self : Ext T;
  stage : gset path;
  tasks : list coroutine
}.
Arguments mkWorld {T}.
Arguments self {T}.
Arguments stage {T}.
Arguments tasks {T}.

(** The five buttons of the panel (lines 30-34). *)
Inductive button : Type :=
| Start | Stop | Reset | ChangeSColor | ChangeGColor.

(** What the host can make happen: a click, or a turn of the loop given to
    one task. *)
Inductive event : Type :=
| Click (b : button)
| Wake (i : nat).

Section Driver.
Context {T : Type} `{PyFloat T}.

(** Statements of a method body: they mutate the world and either fall
    through or raise; what was assigned before a raise stays assigned. *)
Definition Py (A : Type) : Type := World T → World T * res A.

Definition ret {A} (a : A) : Py A := λ w, (w, Normal a).
Definition bind {A B} (m : Py A) (k : A → Py B) : Py B :=
  λ w, match m w with
       | (w', Normal a) => k a w'
       | (w', Raised e) => (w', Raised e)
       end.
Definition raise {A} (e : exn) : Py A := λ w, (w, Raised e).

#[local] Instance Py_ret : MRet Py := @ret.
#[local] Instance Py_bind : MBind Py := λ A B k m, bind m k.

Definition pass : Py unit := ret tt.

(** [self.f] for an attribute assigned in [on_startup]. *)
Definition gets {A} (f : Ext T → A) : Py A := λ w, (w, Normal (f (self w))).
(** [self.f] for an attribute that may never have been assigned. *)
Definition getattr {A} (name : string) (f : Ext T → attr A) : Py A :=
  λ w, match f (self w) with
       | Bound a => ret a w
       | Unset => raise (AttributeError name) w
       end.
(** [self.f = v] *)
Definition assign (upd : Ext T → Ext T) : Py unit :=
  λ w, (mkWorld (upd (self w)) (stage w) (tasks w), Normal tt).

(** *** The scene collaborator *)

(** [Define(stage, p)]: the prim at [p] exists afterwards, and so do the
    prims above it, which the scene library defines when they are
    missing. *)
Definition Define (p : path) : Py unit :=
  λ w, (mkWorld (self w) ({[p]} ∪ (list_to_set (ancestors p) ∪ stage w)) (tasks w),
        Normal tt).
(** [RemovePrim(p)]: the prim at [p] and the prims below it are gone. *)
Definition RemovePrim (p : path) : Py unit :=
  λ w, (mkWorld (self w) (filter (λ q, ¬ below p q) (stage w)) (tasks w), Normal tt).
(** [if handle:] on a schema object: the handle is not [None] and its prim
    is on the stage. *)
Definition truthy (h : option path) : Py bool :=
  λ w, (w, Normal match h with
                  | Some p => bool_decide (p ∈ stage w)
                  | None => false
                  end).
(** [xform.SetTranslate(...)]: the call reaches the prim of the transform
    and raises when that prim is no longer on the stage. *)
Definition SetTranslate (p : path) : Py unit :=
  λ w, if bool_decide (p ∈ stage w) then (w, Normal tt) else (w, Raised RuntimeError).
(** [handle.GetPath()] inside a guarded block. *)
Definition GetPath (h : option path) : path := default EmptyString h.

(** *** The event loop *)

(** [asyncio.ensure_future(self.run_simulation())]: a new task, not yet
    started; the result is its handle. *)
Definition ensure_future : Py nat :=
  λ w, (mkWorld (self w) (stage w) (tasks w ++ [Created]), Normal (length (tasks w))).
(** [task.cancel()]: a task that is still pending ends cancelled. *)
Definition cancel (t : nat) : Py unit :=
  λ w, (mkWorld (self w) (stage w)
          (match tasks w !! t with
           | Some c => if alive c then <[t := Cancelled]> (tasks w) else tasks w
           | None => tasks w
           end), Normal tt).

(** *** The methods *)

(** Lines 11-23.  [_plane] and [xform] are not among the attributes
    assigned here. *)
Definition on_startup (st : gset path) : World T :=
  mkWorld
    {| _running := false;
       _height := flit 20;
       _velocity := flit 0;
       _gravity := fneg (flit 9.81);
       _time_step := flit 0.016;
       _elasticity := flit 0.7;
       _timer := None;
       _sphere := None;
       _plane := Unset;
       xform := Unset;
       _label := HeightText (flit 20) |}
    st [].

(** Lines 38-40. *)
Definition on_shutdown : Py unit :=
  tm ← gets _timer;
  match tm with
  | Some t => cancel t
  | None => pass
  end.

(** Lines 42-51. *)
Definition create_sphere : Py unit :=
  sph ← gets _sphere;
  live ← truthy sph;
  (if live : bool then RemovePrim (GetPath sph) else pass);;
  Define sphere_prim_path;;
  assign (set_sphere (Some sphere_prim_path));;
  assign (set_xform (Bound sphere_prim_path));;
  SetTranslate sphere_prim_path.

(** Lines 53-67. *)
Definition create_ground_plane : Py unit :=
  Define plane_prim_path;;
  assign (set_plane (Bound (Some plane_prim_path))).

(** Lines 69-82. *)
Definition change_sphere_color : Py unit :=
  sph ← gets _sphere;
  live ← truthy sph;
  if live : bool then
    Define "/World/bouncing_sphere/color_shader";;
    Define "/World/bouncing_sphere/material"
  else pass.

(** Lines 84-103. *)
Definition change_ground_color : Py unit :=
  pl ← getattr "_plane" _plane;
  live ← truthy pl;
  if live : bool then
    Define "/World/ground_plane/color_shader";;
    Define "/World/ground_plane/color_material"
  else pass.

(** Lines 106-112. *)
Definition start_simulation : Py unit :=
  create_sphere;;
  create_ground_plane;;
  running ← gets _running;
  if negb running then
    assign (set_running true);;
    t ← ensure_future;
    assign (set_timer (Some t))
  else pass.

(** Lines 114-115. *)
Definition stop_simulation : Py unit :=
  assign (set_running false).

(** Lines 117-138. *)
Definition reset_simulation : Py unit :=
  assign (set_running false);;
  tm ← gets _timer;
  match tm with
  | Some t => cancel t;; assign (set_timer None)
  | None => pass
  end;;
  sph ← gets _sphere;
  live ← truthy sph;
  (if live : bool then
     RemovePrim (GetPath sph);; assign (set_sphere None)
   else pass);;
  pl ← getattr "_plane" _plane;
  live ← truthy pl;
  (if live : bool then
     RemovePrim (GetPath pl);; assign (set_plane (Bound None))
   else pass);;
  assign (set_height (flit 20));;
  assign (set_velocity (flit 0));;
  assign (set_label ResetText).

(** Lines 145-153: what the coroutine does between waking up from
    [asyncio.sleep] and the next test of the [while] condition. *)
Definition run_simulation_body : Py unit :=
  assign run_simulation_step;;
  xf ← getattr "xform" xform;
  SetTranslate xf;;
  h ← gets _height;
  assign (set_label (HeightText h)).

(** The object after the body, when the body runs to its end. *)
Definition tick (s : Ext T) : Ext T :=
  set_label (HeightText (_height (run_simulation_step s))) (run_simulation_step s).

(** Line 143: the [while] test sends the coroutine to sleep or lets it
    return. *)
Definition loop_head (i : nat) (w : World T) : World T :=
  mkWorld (self w) (stage w)
    (<[i := if _running (self w) then Sleeping else Finished]> (tasks w)).

(** One turn of the event loop given to task [i].  A task that was just
    created enters the loop; a sleeping task runs the body once and tests
    the loop condition again; an exception ends the task; tasks that have
    ended are never resumed. *)
Definition resume (i : nat) : Py unit :=
  λ w, match tasks w !! i with
       | Some Created => (loop_head i w, Normal tt)
       | Some Sleeping =>
           match run_simulation_body w with
           | (w', Normal _) => (loop_head i w', Normal tt)
           | (w', Raised _) =>
               (mkWorld (self w') (stage w') (<[i := Failed]> (tasks w')), Normal tt)
           end
       | _ => (w, Normal tt)
       end.

(** The callbacks bound to the buttons (lines 30-34). *)
Definition clicked_fn (b : button) : Py unit :=
  match b with
  | Start => start_simulation
  | Stop => stop_simulation
  | Reset => reset_simulation
  | ChangeSColor => change_sphere_color
  | ChangeGColor => change_ground_color
  end.

(** The effect of one event. *)
Definition fire (e : event) : Py unit :=
  match e with
  | Click b => clicked_fn b
  | Wake i => resume i
  end.

(** A history of events, cut at the first exception that escapes a
    callback. *)
Fixpoint run (es : list event) : Py unit :=
  match es with
  | [] => pass
  | e :: es => fire e;; run es
  end.

(** How many driver loops are pending. *)
Definition active (w : World T) : nat := length (filter (λ c, alive c = true) (tasks w)).

End Driver.


(** ** Iteration and sample states *)

(** [n] consecutive passes through lines 145-150. *)
Fixpoint steps {T} `{PyFloat T} (n : nat) (s : Ext T) : Ext T :=
  match n with
  | O => s
  | S n => run_simulation_step (steps n s)
  end.

(** The states a run goes through: [s] and the [n] that follow it. *)
Fixpoint trajectory {T} `{PyFloat T} (n : nat) (s : Ext T) : list (Ext T) :=
  match n with
  | O => [s]
  | S n => s :: trajectory n (run_simulation_step s)
  end.

(** The object as [start_simulation] leaves it after [on_startup], with
    the five floats chosen freely. *)
Definition ball {T} (h v g dt e : T) : Ext T :=
  {| _running := true; _height := h; _velocity := v; _gravity := g;
     _time_step := dt; _elasticity := e; _timer := Some 0%nat;
     _sphere := Some sphere_prim_path;
     _plane := Bound (Some plane_prim_path);
     xform := Bound sphere_prim_path;
     _label := HeightText h |}.

(** The same floats on an object whose run was stopped and whose prims
    were never created. *)
Definition idle_ball {T} (h v g dt e : T) : Ext T :=
  {| _running := false; _height := h; _velocity := v; _gravity := g;
     _time_step := dt; _elasticity := e; _timer := None;
     _sphere := None; _plane := Unset; xform := Unset;
     _label := ResetText |}.

(** A world in which the driver of [s] sleeps between two ticks. *)
Definition mid_run {T} (s : Ext T) : World T :=
  mkWorld s ({[sphere_prim_path]} ∪ {[plane_prim_path]}) [Sleeping].

(** [n] consecutive passes through the whole body, lines 145-153, on an
    object whose sphere has its transform. *)
Fixpoint ticks {T} `{PyFloat T} (n : nat) (s : Ext T) : Ext T :=
  match n with
  | O => s
  | S n => tick (ticks n s)
  end.

(** Two objects hold the same five floats. *)
Definition same_floats {T} (s1 s2 : Ext T) : Prop :=
  _height s1 = _height s2 ∧ _velocity s1 = _velocity s2
  ∧ _gravity s1 = _gravity s2 ∧ _time_step s1 = _time_step s2
  ∧ _elasticity s1 = _elasticity s2.

(** A history the host plays on a world.  An exception that escapes a
    callback does not undo what the callback had assigned, and the events
    go on. *)
Definition play {T} `{PyFloat T} (es : list event) (w : World T) : World T :=
  fold_left (λ w e, fst (fire e w)) es w.

(** The prim the scene library defines above the sphere and the plane
    when the stage does not have it. *)
Definition world_prim_path : path := "/World".

(** The extension keeps its prims to itself: next to the prims [st] of the
    host, the stage holds only the prim above the sphere and the plane,
    prims at or below the sphere path, and then [_sphere] is a live handle
    on the sphere, or prims at or below the plane path, and then [_plane]
    is a live handle on the plane. *)
Definition tidy {T} (st : gset path) (w : World T) : Prop :=
  (∀ q, q ∈ st → q ∈ stage w)
  ∧ (∀ q, q ∈ stage w →
       q ∈ st
       ∨ q = world_prim_path
       ∨ (below sphere_prim_path q
          ∧ _sphere (self w) = Some sphere_prim_path ∧ sphere_prim_path ∈ stage w)
       ∨ (below plane_prim_path q
          ∧ _plane (self w) = Bound (Some plane_prim_path) ∧ plane_prim_path ∈ stage w))
  ∧ (_sphere (self w) = None ∨ _sphere (self w) = Some sphere_prim_path)
  ∧ (_plane (self w) = Unset ∨ _plane (self w) = Bound None
     ∨ _plane (self w) = Bound (Some plane_prim_path)).

(** ** Proof automation *)

(** Goals about one field of [run_simulation_step s]: unfold the four
    assignments and split on the test of line 148. *)
Ltac step_fields :=
  unfold run_simulation_step, bounces, height', velocity';
  cbn [set_velocity set_height _height _velocity _gravity _time_step
       _elasticity _running _timer _sphere _plane xform _label];
  match goal with
  | |- context [if ?b then _ else _] => destruct b; reflexivity
  end.

(** Reduce projections and setters, and nothing of the stage. *)
Ltac py_norm :=
  cbv beta iota zeta
      delta [fst snd self stage tasks _running _height _velocity _gravity
             _time_step _elasticity _timer _sphere _plane xform _label
             set_running set_height set_velocity set_timer set_sphere
             set_plane set_xform set_label GetPath default from_option id
             negb].

(** [create_sphere] always runs to its end: the [SetTranslate] of line 51
    reaches the sphere that line 48 has just defined. *)
Lemma create_sphere_eq {T} `{PyFloat T} (w : World T) :
  create_sphere w =
    (mkWorld
       (set_xform (Bound sphere_prim_path)
          (set_sphere (Some sphere_prim_path) (self w)))
       ({[sphere_prim_path]}
        ∪ (list_to_set (ancestors sphere_prim_path)
           ∪ (if match _sphere (self w) with
                 | Some p => bool_decide (p ∈ stage w)
                 | None => false
                 end
              then filter (λ q, ¬ below (GetPath (_sphere (self w))) q) (stage w)
              else stage w)))
       (tasks w),
     Normal tt).
Proof.
  destruct w as [[run h v g dt e tm sph pl xf lb] st ts].
  unfold create_sphere, mbind, Py_bind, bind, pass, gets, assign, truthy,
    Define, RemovePrim, SetTranslate, ret.
  destruct sph as [p |]; py_norm; [case_bool_decide; py_norm |];
    rewrite bool_decide_eq_true_2 by set_solver; reflexivity.
Qed.

(** Unfold a method body down to functions on worlds. *)
Ltac py_unfold :=
  unfold run_simulation_body, start_simulation, stop_simulation,
    reset_simulation, change_sphere_color, change_ground_color,
    create_ground_plane, clicked_fn;
  unfold mbind, Py_bind, bind; cbv beta;
  rewrite ?create_sphere_eq;
  unfold pass, gets, getattr, assign, truthy,
    Define, RemovePrim, SetTranslate, ensure_future, cancel, raise, ret.

(** Case analysis on the truth value of every guard on a handle. *)
Ltac case_guards :=
  repeat match goal with
         | |- context [match ?h with Some _ => bool_decide _ | None => false end] =>
             destruct h; cbn
         | |- context [bool_decide ?P] => destruct (bool_decide P); cbn
         end.

(** * Properties of the integrator *)

Section Integrator.
Context {T : Type} `{PyFloat T}.

(** C1. One pass through lines 145-150 computes
    [velocity' = velocity + gravity * timeStep], then
    [height' = height + velocity' * timeStep]; when [height' <= 0] it
    stores [-height' * elasticity] and [-velocity' * elasticity], otherwise
    [height'] and [velocity']; every other attribute is left as it was.
    This holds in any arithmetic, for every state and every time step. *)
Theorem run_simulation_step_spec (s : Ext T) :
  let v1 := fadd (_velocity s) (fmul (_gravity s) (_time_step s)) in
  let h1 := fadd (_height s) (fmul v1 (_time_step s)) in
  let hit := fle h1 (flit 0) in
  run_simulation_step s =
    {| _running := _running s;
       _height := if hit then fmul (fneg h1) (_elasticity s) else h1;
       _velocity := if hit then fmul (fneg v1) (_elasticity s) else v1;
       _gravity := _gravity s;
       _time_step := _time_step s;
       _elasticity := _elasticity s;
       _timer := _timer s;
       _sphere := _sphere s;
       _plane := _plane s;
       xform := xform s;
       _label := _label s |}.
Proof.
  intros v1 h1 hit. unfold run_simulation_step.
  cbn [set_velocity set_height _height _velocity _gravity _time_step
       _elasticity _running _timer _sphere _plane xform _label].
  fold v1. fold h1. fold hit.
  destruct hit; reflexivity.
Qed.

Lemma step_height (s : Ext T) :
  _height (run_simulation_step s) =
    if bounces s then fmul (fneg (height' s)) (_elasticity s) else height' s.
Proof. step_fields. Qed.

Lemma step_velocity (s : Ext T) :
  _velocity (run_simulation_step s) =
    if bounces s then fmul (fneg (velocity' s)) (_elasticity s) else velocity' s.
Proof. step_fields. Qed.

Lemma step_gravity (s : Ext T) : _gravity (run_simulation_step s) = _gravity s.
Proof. step_fields. Qed.

Lemma step_time_step (s : Ext T) : _time_step (run_simulation_step s) = _time_step s.
Proof. step_fields. Qed.

Lemma step_elasticity (s : Ext T) : _elasticity (run_simulation_step s) = _elasticity s.
Proof. step_fields. Qed.

(** C7. The pass is a function of the five floats alone and writes only
    [_height] and [_velocity]: two objects that agree on height, velocity,
    gravity, elasticity and time step, whatever else they hold, come out
    with the same height and the same velocity, and every other attribute
    of the object is what it was. *)
Theorem run_simulation_step_deterministic (s1 s2 : Ext T) :
  _height s1 = _height s2 →
  _velocity s1 = _velocity s2 →
  _gravity s1 = _gravity s2 →
  _elasticity s1 = _elasticity s2 →
  _time_step s1 = _time_step s2 →
  _height (run_simulation_step s1) = _height (run_simulation_step s2)
  ∧ _velocity (run_simulation_step s1) = _velocity (run_simulation_step s2)
  ∧ run_simulation_step s1 =
      set_velocity (_velocity (run_simulation_step s1))
        (set_height (_height (run_simulation_step s1)) s1).
Proof.
  intros Hh Hv Hg He Hdt.
  split; [| split].
  - rewrite !step_height. unfold bounces, height', velocity'.
    rewrite Hh, Hv, Hg, He, Hdt. reflexivity.
  - rewrite !step_velocity. unfold bounces, height', velocity'.
    rewrite Hh, Hv, Hg, He, Hdt. reflexivity.
  - clear. step_fields.
Qed.

End Integrator.

(** The witness runs the pass in binary64 on the floats of [on_startup],
    once on a running object and once on an idle one. *)
Lemma run_simulation_step_deterministic_witness :
  let s1 : Ext float := ball (flit 20) (flit 0) (fneg (flit 9.81)) (flit 0.016) (flit 0.7) in
  let s2 : Ext float := idle_ball (flit 20) (flit 0) (fneg (flit 9.81)) (flit 0.016) (flit 0.7) in
  _height (run_simulation_step s1) = _height (run_simulation_step s2)
  ∧ _velocity (run_simulation_step s1) = _velocity (run_simulation_step s2)
  ∧ run_simulation_step s1 =
      set_velocity (_velocity (run_simulation_step s1))
        (set_height (_height (run_simulation_step s1)) s1).
Proof.
  intros s1 s2.
  apply (run_simulation_step_deterministic s1 s2); reflexivity.
Defined.

(** * The integrator in exact arithmetic

    This section reads the five floats as the real numbers the
    specification's data model gives them, here exact rationals: sums and
    products are not rounded and neither overflow nor produce NaN. *)

Section Exact.
Local Open Scope Q_scope.
Implicit Types s : Ext Q.

Lemma bounces_iff s : bounces s = true ↔ height' s <= 0.
Proof. unfold bounces. cbn [fle flit Q_float]. apply Qle_bool_iff. Qed.

Lemma not_bounces_iff s : bounces s = false ↔ 0 < height' s.
Proof.
  rewrite <- not_true_iff_false, bounces_iff. split.
  - apply Qnot_le_lt.
  - apply Qlt_not_le.
Qed.

(** The height that comes out of a pass is never negative when the
    elasticity is not. *)
Lemma step_height_nonneg s :
  0 <= _elasticity s → 0 <= _height (run_simulation_step s).
Proof.
  intros He. rewrite step_height.
  destruct (bounces s) eqn:Hb.
  - apply bounces_iff in Hb. cbn [fmul fneg Q_float]. nra.
  - apply not_bounces_iff in Hb. lra.
Qed.





(** *** Coming to rest *)

Lemma steps_gravity {T} `{PyFloat T} n (s : Ext T) : _gravity (steps n s) = _gravity s.
Proof.
  induction n as [| n IH]; [reflexivity |].
  cbn [steps]. rewrite step_gravity. exact IH.
Qed.

Lemma steps_elasticity {T} `{PyFloat T} n (s : Ext T) :
  _elasticity (steps n s) = _elasticity s.
Proof.
  induction n as [| n IH]; [reflexivity |].
  cbn [steps]. rewrite step_elasticity. exact IH.
Qed.

(** A bounce with no elasticity stops the ball. *)
Lemma dead_bounce s :
  _elasticity s == 0 → bounces s = true →
  _height (run_simulation_step s) == 0 ∧ _velocity (run_simulation_step s) == 0.
Proof.
  intros He Hb. rewrite step_height, step_velocity, Hb.
  cbn [fmul fneg Q_float]. rewrite He. split; ring.
Qed.

(** A ball at rest on the ground is pulled into the ground by a gravity
    that points down (or is absent), so its next pass bounces. *)
Lemma rest_bounces s :
  _gravity s <= 0 → _height s == 0 → _velocity s == 0 → bounces s = true.
Proof.
  intros Hg Hh Hv. apply bounces_iff. unfold height', velocity'.
  cbn [fadd fmul Q_float]. rewrite Hh, Hv.
  assert (Hsq : 0 <= _time_step s * _time_step s) by nra.
  nra.
Qed.

Lemma rest_forever n : ∀ s,
  _elasticity s == 0 → _gravity s <= 0 →
  _height s == 0 → _velocity s == 0 →
  _height (steps n s) == 0 ∧ _velocity (steps n s) == 0.
Proof.
  induction n as [| n IH]; intros s He Hg Hh Hv; [split; assumption |].
  destruct (IH s He Hg Hh Hv) as [Hh' Hv'].
  change (steps (S n) s) with (run_simulation_step (steps n s)).
  apply dead_bounce.
  - rewrite steps_elasticity. exact He.
  - apply rest_bounces; [rewrite steps_gravity |..]; assumption.
Qed.







End Exact.

(** * Properties of the driver *)

Section DriverFacts.
Context {T : Type} `{PyFloat T}.
Implicit Types w : World T.

(** The pass through lines 145-150 leaves the flag and the transform
    handle alone. *)
Lemma step_running (s : Ext T) : _running (run_simulation_step s) = _running s.
Proof. unfold run_simulation_step. destruct (fle _ _); reflexivity. Qed.

Lemma step_xform (s : Ext T) : xform (run_simulation_step s) = xform s.
Proof. unfold run_simulation_step. destruct (fle _ _); reflexivity. Qed.

(** A task that was just created enters the loop. *)
Lemma resume_created w i :
  tasks w !! i = Some Created → resume i w = (loop_head i w, Normal tt).
Proof. intros Hi. unfold resume. rewrite Hi. reflexivity. Qed.

(** A sleeping task whose sphere is on the stage runs the body once. *)
Lemma resume_sleeping w i p :
  tasks w !! i = Some Sleeping →
  xform (self w) = Bound p →
  p ∈ stage w →
  resume i w = (loop_head i (mkWorld (tick (self w)) (stage w) (tasks w)), Normal tt).
Proof.
  intros Hi Hx Hp. unfold resume. rewrite Hi.
  py_unfold. cbn [self stage tasks]. rewrite step_xform, Hx.
  rewrite bool_decide_eq_true_2 by assumption. reflexivity.
Qed.

(** A sleeping task whose sphere was removed ends with the exception of
    line 152, after the pass through lines 145-150. *)
Lemma resume_sleeping_removed w i p :
  tasks w !! i = Some Sleeping →
  xform (self w) = Bound p →
  p ∉ stage w →
  resume i w =
    (mkWorld (run_simulation_step (self w)) (stage w) (<[i := Failed]> (tasks w)),
     Normal tt).
Proof.
  intros Hi Hx Hp. unfold resume. rewrite Hi.
  py_unfold. cbn [self stage tasks]. rewrite step_xform, Hx.
  rewrite bool_decide_eq_false_2 by assumption. reflexivity.
Qed.

(** A sleeping task on an object without a transform ends with an
    exception as well. *)
Lemma resume_sleeping_unset w i :
  tasks w !! i = Some Sleeping →
  xform (self w) = Unset →
  resume i w =
    (mkWorld (run_simulation_step (self w)) (stage w) (<[i := Failed]> (tasks w)),
     Normal tt).
Proof.
  intros Hi Hx. unfold resume. rewrite Hi.
  py_unfold. cbn [self stage tasks]. rewrite step_xform, Hx. reflexivity.
Qed.

Lemma tick_running (s : Ext T) : _running (tick s) = _running s.
Proof. unfold tick. cbn [set_label _running]. apply step_running. Qed.

Lemma tick_xform (s : Ext T) : xform (tick s) = xform s.
Proof. unfold tick. cbn [set_label xform]. apply step_xform. Qed.

Lemma tick_height (s : Ext T) : _height (tick s) = _height (run_simulation_step s).
Proof. reflexivity. Qed.

Lemma tick_velocity (s : Ext T) : _velocity (tick s) = _velocity (run_simulation_step s).
Proof. reflexivity. Qed.

(** The label is write-only: the pass does not read it. *)
Lemma step_after_tick (s : Ext T) :
  _height (run_simulation_step (tick s)) = _height (steps 2 s)
  ∧ _velocity (run_simulation_step (tick s)) = _velocity (steps 2 s).
Proof.
  cbn [steps]. unfold tick.
  generalize (run_simulation_step s). intros s1.
  unfold run_simulation_step.
  cbn [set_label set_velocity set_height _height _velocity _gravity
       _time_step _elasticity].
  destruct (fle _ _); split; reflexivity.
Qed.

(** Two pending tasks and a raised flag: both tasks enter the loop, and a
    period later each has run the body once. *)
Lemma two_created_tasks_both_loop s st p :
  _running s = true →
  xform s = Bound p →
  p ∈ st →
  run [Wake 0; Wake 1; Wake 0; Wake 1] (mkWorld s st [Created; Created]) =
    (mkWorld (tick (tick s)) st [Sleeping; Sleeping], Normal tt).
Proof.
  intros Hr Hx Hp.
  cbn [run fire]. unfold mbind, Py_bind, bind, pass, ret.
  rewrite (resume_created _ 0) by reflexivity.
  unfold loop_head. cbn [self stage tasks]. rewrite Hr. simpl insert.
  rewrite (resume_created _ 1) by reflexivity.
  unfold loop_head. cbn [self stage tasks]. rewrite Hr. simpl insert.
  rewrite (resume_sleeping _ 0 p) by (reflexivity || assumption).
  unfold loop_head. cbn [self stage tasks]. rewrite tick_running, Hr. simpl insert.
  rewrite (resume_sleeping _ 1 p)
    by (reflexivity || assumption || (cbn [self]; rewrite tick_xform; assumption)).
  unfold loop_head. cbn [self stage tasks]. rewrite !tick_running, Hr. simpl insert.
  reflexivity.
Qed.

(** After [create_ground_plane] has run once the guard is safe. *)
Lemma change_ground_color_after_start w :
  snd (change_ground_color (fst (start_simulation w))) = Normal tt.
Proof.
  destruct w as [[run h v g dt e tm sph pl xf lb] st ts].
  py_unfold. destruct run, sph; py_norm; repeat (case_bool_decide; py_norm);
    try reflexivity; set_solver.
Qed.

(** The missing assignment is the only way a click can raise: once
    [_plane] is bound, every callback runs to its end. *)
Lemma clicks_never_raise_once_plane_is_bound w b :
  _plane (self w) ≠ Unset → snd (clicked_fn b w) = Normal tt.
Proof.
  destruct w as [[run h v g dt e tm sph pl xf lb] st ts].
  cbn [self _plane]. intros Hpl.
  destruct pl as [| pl]; [congruence |].
  destruct b; cbn [clicked_fn]; py_unfold;
    destruct run, tm, sph, pl; cbn; case_guards; reflexivity.
Qed.

(** [start_simulation] while the flag is up spawns no task. *)
Lemma start_while_running_spawns_nothing w :
  _running (self w) = true → tasks (fst (start_simulation w)) = tasks w.
Proof.
  destruct w as [[run h v g dt e tm sph pl xf lb] st ts].
  cbn [self _running]. intros ->.
  py_unfold. destruct sph; cbn; case_guards; reflexivity.
Qed.

(** C3, as the code has it.  The body of the loop never looks at the sign
    of the time step: for every world, whatever the time step, the pass
    through lines 145-150 is performed and the exception that ends the
    body, if any, is not [InvalidArgument]; the body runs to its end
    whenever the sphere of the transform is on the stage. *)
Theorem run_simulation_body_accepts_any_time_step w :
  _height (self (fst (run_simulation_body w))) = _height (run_simulation_step (self w))
  ∧ _velocity (self (fst (run_simulation_body w))) = _velocity (run_simulation_step (self w))
  ∧ snd (run_simulation_body w) ≠ Raised InvalidArgument
  ∧ (∀ p, xform (self w) = Bound p → p ∈ stage w →
       snd (run_simulation_body w) = Normal tt).
Proof.
  py_unfold. cbn [self stage tasks]. rewrite step_xform.
  destruct (xform (self w)) as [| p]; [cbn; repeat split; congruence |].
  case_bool_decide; cbn; repeat split; try congruence.
  intros p' [= <-] Hp. contradiction.
Qed.

(** C8, at the failing input.  [on_startup] never assigns [_plane], so the
    guard [if self._plane:] raises [AttributeError] when "Change G color"
    or "Reset" is clicked before the first "Start"; the sibling guard
    [if self._sphere:], whose attribute [on_startup] does assign, skips. *)
Theorem ground_plane_guard_raises_before_start (st : gset path) :
  snd (clicked_fn ChangeGColor (on_startup st)) = Raised (AttributeError "_plane")
  ∧ snd (clicked_fn Reset (on_startup st)) = Raised (AttributeError "_plane")
  ∧ clicked_fn ChangeSColor (on_startup st) = (on_startup st, Normal tt).
Proof. repeat split. Qed.

(** C9, as the code has it.  [start_simulation] never touches height or
    velocity and never raises: a run begins from whatever the two hold.
    They hold the starting height 20 and velocity 0 after [on_startup]
    and after every [reset_simulation] that runs to its end. *)
Theorem start_simulation_keeps_height_and_velocity w :
  _height (self (fst (start_simulation w))) = _height (self w)
  ∧ _velocity (self (fst (start_simulation w))) = _velocity (self w)
  ∧ snd (start_simulation w) = Normal tt
  ∧ (∀ st, _height (self (on_startup (T:=T) st)) = flit 20
           ∧ _velocity (self (on_startup (T:=T) st)) = flit 0)
  ∧ match reset_simulation w with
    | (w', Normal _) => _height (self w') = flit 20 ∧ _velocity (self w') = flit 0
    | (_, Raised _) => True
    end.
Proof.
  destruct w as [[run h v g dt e tm sph pl xf lb] st ts].
  split; [| split; [| split; [| split]]].
  - py_unfold. destruct run, sph; cbn; case_guards; reflexivity.
  - py_unfold. destruct run, sph; cbn; case_guards; reflexivity.
  - py_unfold. destruct run, sph; cbn; case_guards; reflexivity.
  - intros st0. split; reflexivity.
  - py_unfold. destruct tm, sph, pl as [| [pl |]]; cbn; case_guards;
      try exact I; split; reflexivity.
Qed.

(** C10, at the failing input.  "Start", "Stop", "Start" with no turn of
    the loop in between: [stop_simulation] lowers the flag but leaves the
    first task pending, the second [start_simulation] finds the flag down
    and spawns a second task, and the first task finds the flag up again
    when it tests it.  Both tasks then loop: after each has been resumed
    twice both sleep in the loop and the object has gone through two
    passes of the integrator in one period. *)
Theorem stop_then_start_leaves_two_drivers :
  let w0 : World T := on_startup ∅ in
  let w := fst (run [Click Start; Click Stop; Click Start] w0) in
  let w' := fst (run [Wake 0; Wake 1; Wake 0; Wake 1] w) in
  tasks w = [Created; Created]
  ∧ active w = 2
  ∧ tasks w' = [Sleeping; Sleeping]
  ∧ active w' = 2
  ∧ _height (self w') = _height (steps 2 (self w))
  ∧ _velocity (self w') = _velocity (steps 2 (self w)).
Proof.
  intros w0 w w'.
  set (s := set_timer (Some 1%nat)
              (ball (flit 20) (flit 0) (fneg (flit 9.81)) (flit 0.016) (flit 0.7))).
  assert (Hw : w = mkWorld s (stage w) [Created; Created])
    by (vm_compute; reflexivity).
  assert (Hw' : w' = mkWorld (tick (tick s)) (stage w) [Sleeping; Sleeping]).
  { unfold w'. rewrite Hw at 1.
    rewrite (two_created_tasks_both_loop s _ sphere_prim_path) by reflexivity.
    reflexivity. }
  rewrite Hw'. clearbody w'. rewrite Hw. cbn [tasks self].
  rewrite tick_height, tick_velocity.
  repeat split; apply step_after_tick.
Qed.

End DriverFacts.

(** * Concrete runs *)

Section Runs.
Local Open Scope Q_scope.

(** C3 fails as stated: nothing rejects a time step that is negative or
    zero.  With time step -1 (height 20, velocity 0, gravity -1) the body
    runs to its end and leaves height 19 and velocity 1, and the task goes
    back to sleep; with time step 0 it runs to its end as well. *)
Lemma nonpositive_time_step_is_accepted :
  let w : World Q := mid_run (ball 20 0 (-1) (-1) (1 # 2)) in
  let z : World Q := mid_run (ball 20 (-3) (-1) 0 (1 # 2)) in
  _time_step (self w) < 0
  ∧ snd (run_simulation_body w) = Normal tt
  ∧ snd (run_simulation_body w) ≠ Raised InvalidArgument
  ∧ _height (self (fst (run_simulation_body w))) == 19
  ∧ _velocity (self (fst (run_simulation_body w))) == 1
  ∧ tasks (fst (resume 0 w)) = [Sleeping]
  ∧ _time_step (self z) == 0
  ∧ snd (run_simulation_body z) = Normal tt
  ∧ snd (run_simulation_body z) ≠ Raised InvalidArgument
  ∧ _height (self (fst (run_simulation_body z))) == 20
  ∧ _velocity (self (fst (run_simulation_body z))) == -3.
Proof.
  intros w z.
  repeat match goal with
         | |- _ ∧ _ => split
         | |- _ ≠ _ => discriminate
         | |- _ => reflexivity
         end.
Qed.

(** C9 fails as stated: a "Start" that follows a "Stop" resumes the run
    where it was.  After "Start", one tick, "Stop" and "Start" again the
    flag is up, a second task is pending, and height and velocity are
    those the tick left, not 20 and 0. *)
Lemma start_after_stop_resumes_mid_flight :
  let r := run [Click Start; Wake 0; Wake 0; Click Stop; Click Start]
               (on_startup ∅ : World Q) in
  snd r = Normal tt
  ∧ _running (self (fst r)) = true
  ∧ tasks (fst r) = [Sleeping; Created]
  ∧ _height (self (fst r)) == 19.99748864
  ∧ _velocity (self (fst r)) == -0.15696
  ∧ ¬ (_height (self (fst r)) == 20)
  ∧ ¬ (_velocity (self (fst r)) == 0).
Proof.
  intros r.
  assert (Hr : r = (fst r, Normal tt)) by (vm_compute; reflexivity).
  split; [rewrite Hr; reflexivity |].
  split; [vm_compute; reflexivity |].
  split; [vm_compute; reflexivity |].
  split; [vm_compute; reflexivity |].
  split; [vm_compute; reflexivity |].
  split; vm_compute; discriminate.
Qed.

End Runs.

(** ** The same runs in binary64

    Every input above is exact in binary64, so CPython computes what the
    rational model computes. *)

Section Binary64.
Local Open Scope float_scope.

Example zero_height_bounce_binary64 :
  let s : Ext float := ball 1 0 (-1) 1 0.5 in
  (height' s =? 0) = true
  ∧ (_velocity (run_simulation_step s) =? 0.5) = true
  ∧ (_height (steps 1 (run_simulation_step s)) =? 0.25) = true.
Proof. repeat split. Qed.

Example upward_gravity_binary64 :
  let s : Ext float := ball 1 (-2) 1 1 0 in
  bounces s = true
  ∧ (_height (run_simulation_step s) =? 0) = true
  ∧ (_velocity (run_simulation_step s) =? 0) = true
  ∧ (_height (steps 1 (run_simulation_step s)) =? 1) = true.
Proof. repeat split. Qed.

Example negative_time_step_binary64 :
  let w : World float := mid_run (ball 20 0 (-1) (-1) 0.5) in
  snd (run_simulation_body w) = Normal tt
  ∧ (_height (self (fst (run_simulation_body w))) =? 19) = true
  ∧ (_velocity (self (fst (run_simulation_body w))) =? 1) = true.
Proof. repeat split. Qed.

(** The run the extension ships with, from [on_startup], over 4000 ticks
    (64 simulated seconds): the height a pass leaves is never negative,
    and no bounce increases the speed. *)
Example shipped_run_height_nonneg_binary64 :
  forallb (λ s, 0 <=? _height (run_simulation_step s))
          (trajectory 4000 (self (on_startup ∅ : World float))) = true.
Proof. vm_compute. reflexivity. Qed.

Example shipped_run_bounces_lose_speed_binary64 :
  forallb (λ s, if bounces s
                then abs (_velocity (run_simulation_step s)) <=? abs (velocity' s)
                else true)
          (trajectory 4000 (self (on_startup ∅ : World float))) = true.
Proof. vm_compute. reflexivity. Qed.

Example shipped_run_bounces_binary64 :
  existsb bounces (trajectory 4000 (self (on_startup ∅ : World float))) = true.
Proof. vm_compute. reflexivity. Qed.

Example start_after_stop_binary64 :
  let r := run [Click Start; Wake 0; Wake 0; Click Stop; Click Start]
               (on_startup ∅ : World float) in
  snd r = Normal tt
  ∧ (_height (self (fst r)) <? 20) = true
  ∧ (_velocity (self (fst r)) <? 0) = true.
Proof. vm_compute. repeat split. Qed.

Example start_stop_start_binary64 :
  let w := fst (run [Click Start; Click Stop; Click Start;
                     Wake 0; Wake 1; Wake 0; Wake 1]
                    (on_startup ∅ : World float)) in
  let dv : float := fmul (fneg (flit 9.81)) (flit 0.016) in
  tasks w = [Sleeping; Sleeping]
  ∧ (_velocity (self w) =? dv + dv) = true.
Proof. vm_compute. repeat split. Qed.

(** The same with a turn of the loop before "Stop": the first task is
    asleep when the flag goes down and up again. *)
Example stop_start_within_one_sleep_binary64 :
  let w := fst (run [Click Start; Wake 0; Click Stop; Click Start;
                     Wake 1; Wake 0; Wake 1]
                    (on_startup ∅ : World float)) in
  let dv : float := fmul (fneg (flit 9.81)) (flit 0.016) in
  tasks w = [Sleeping; Sleeping]
  ∧ (_velocity (self w) =? dv + dv) = true.
Proof. vm_compute. repeat split. Qed.

End Binary64.

(** * Further properties of the integrator *)

Section Flight.
Local Open Scope Q_scope.
Implicit Types s : Ext Q.

Lemma steps_time_step {T} `{PyFloat T} n (s : Ext T) :
  _time_step (steps n s) = _time_step s.
Proof.
  induction n as [| n IH]; [reflexivity |].
  cbn [steps]. rewrite step_time_step. exact IH.
Qed.

(** The number of passes as a rational. *)
Local Abbreviation count n := (inject_Z (Z.of_nat n)).

Lemma inject_succ n : count (S n) == count n + 1.
Proof. rewrite Nat2Z.inj_succ. unfold Z.succ. rewrite inject_Z_plus. reflexivity. Qed.







End Flight.

(** * Further properties of the driver *)

Section Lifecycle.
Context {T : Type} `{PyFloat T}.
Implicit Types (w : World T) (s : Ext T) (l : list coroutine).

(** ** One driver *)

Lemma step_same_floats s1 s2 :
  same_floats s1 s2 → same_floats (run_simulation_step s1) (run_simulation_step s2).
Proof.
  intros (Hh & Hv & Hg & Hdt & He). unfold same_floats.
  rewrite !step_height, !step_velocity, !step_gravity, !step_time_step,
    !step_elasticity.
  unfold bounces, height', velocity'. rewrite Hh, Hv, Hg, Hdt, He.
  repeat split; reflexivity.
Qed.

Lemma ticks_same_floats n s : same_floats (ticks n s) (steps n s).
Proof.
  induction n as [| n IH]; [repeat split |].
  cbn [ticks steps].
  destruct (step_same_floats _ _ IH) as (Hh & Hv & Hg & Hdt & He).
  repeat split; assumption.
Qed.

Lemma ticks_running n s : _running (ticks n s) = _running s.
Proof.
  induction n as [| n IH]; [reflexivity |].
  cbn [ticks]. rewrite tick_running. exact IH.
Qed.

Lemma ticks_xform n s : xform (ticks n s) = xform s.
Proof.
  induction n as [| n IH]; [reflexivity |].
  cbn [ticks]. rewrite tick_xform. exact IH.
Qed.

(** A lone sleeping task under a raised flag runs the body once per wake. *)
Lemma lone_driver_ticks n : ∀ s st p,
  _running s = true →
  xform s = Bound p →
  p ∈ st →
  run (replicate n (Wake 0)) (mkWorld s st [Sleeping]) =
    (mkWorld (ticks n s) st [Sleeping], Normal tt).
Proof.
  induction n as [| n IH]; intros s st p Hr Hx Hp; [reflexivity |].
  cbn [replicate run fire]. unfold mbind, Py_bind, bind.
  rewrite (resume_sleeping _ 0 p) by (reflexivity || assumption).
  unfold loop_head. cbn [self stage tasks]. rewrite tick_running, Hr. simpl insert.
  rewrite (IH (tick s) st p) by (rewrite ?tick_running, ?tick_xform; assumption).
  f_equal. f_equal. clear. induction n as [| n IH]; [reflexivity |].
  cbn [ticks]. rewrite IH. reflexivity.
Qed.

(** X4. A run from startup.  "Start" and then [n + 1] turns of the loop: the
    first turn enters the loop, each further one performs exactly one pass
    of the integrator, so the object holds the floats of [n] passes from
    the startup values; one task exists and it sleeps; the flag is up. *)
Theorem started_run_advances_one_pass_per_wake (st : gset path) (n : nat) :
  let w0 : World T := on_startup st in
  let w := fst (run (Click Start :: replicate (S n) (Wake 0)) w0) in
  tasks w = [Sleeping]
  ∧ _running (self w) = true
  ∧ _height (self w) = _height (steps n (self w0))
  ∧ _velocity (self w) = _velocity (steps n (self w0))
  ∧ snd (run (Click Start :: replicate (S n) (Wake 0)) w0) = Normal tt.
Proof.
  intros w0 w.
  set (s := set_timer (Some 0%nat)
              (set_running true
                 (set_plane (Bound (Some plane_prim_path))
                    (set_xform (Bound sphere_prim_path)
                       (set_sphere (Some sphere_prim_path) (self w0)))))).
  set (stg := stage (fst (start_simulation w0))).
  assert (Hstart : start_simulation w0 = (mkWorld s stg [Created], Normal tt))
    by (unfold stg, s, w0; py_unfold; py_norm; reflexivity).
  assert (Hin : sphere_prim_path ∈ stg)
    by (unfold stg, w0; py_unfold; py_norm; set_solver).
  assert (Hrun : run (Click Start :: replicate (S n) (Wake 0)) w0 =
                 (mkWorld (ticks n s) stg [Sleeping], Normal tt)).
  { cbn [replicate run fire clicked_fn]. unfold mbind at 1 2, Py_bind, bind.
    rewrite Hstart.
    rewrite (resume_created _ 0) by reflexivity.
    unfold loop_head. cbn [self stage tasks]. simpl insert.
    change (_running s) with true. cbv iota.
    apply (lone_driver_ticks n s _ sphere_prim_path); (reflexivity || assumption). }
  unfold w. rewrite Hrun. cbn [fst snd self tasks].
  destruct (ticks_same_floats n s) as (Hh & Hv & _).
  rewrite ticks_running, Hh, Hv.
  assert (Hs : same_floats (steps n s) (steps n (self w0))).
  { clear. induction n as [| n IH]; [repeat split |].
    cbn [steps]. apply step_same_floats, IH. }
  destruct Hs as (Hh' & Hv' & _). rewrite Hh', Hv'.
  repeat split; reflexivity.
Qed.

(** ** Stopping and resetting *)


(** X7. "Reset" cancels the scheduled pass.  The task that [_timer] names is cancelled
    before anything can raise: whether or not the method then runs to its
    end, the flag is down, [_timer] is [None], the task is [Cancelled] and
    waking it leaves the world alone. *)
Theorem reset_cancels_the_scheduled_pass w t c :
  _timer (self w) = Some t →
  tasks w !! t = Some c →
  alive c = true →
  let w1 := fst (reset_simulation w) in
  tasks w1 = <[t := Cancelled]> (tasks w)
  ∧ _running (self w1) = false
  ∧ _timer (self w1) = None
  ∧ resume t w1 = (w1, Normal tt).
Proof.
  destruct w as [[run h v g dt e tm sph pl xf lb] st ts].
  cbn [self tasks _timer]. intros -> Ht Hc.
  assert (Hlt : (t < length ts)%nat) by (eapply lookup_lt_Some, Ht).
  py_unfold. cbn [self tasks stage set_running _timer]. rewrite Ht, Hc.
  destruct sph, pl as [| [pl |]]; cbn; case_guards;
    (split; [reflexivity |]); (split; [reflexivity |]); (split; [reflexivity |]);
    unfold resume; cbn [tasks]; rewrite list_lookup_insert_eq by assumption;
    reflexivity.
Qed.

(** Membership in what [RemovePrim] leaves. *)
Lemma elem_of_after_remove (p q : path) (st : gset path) :
  q ∈ filter (λ q, ¬ below p q) st ↔ ¬ below p q ∧ q ∈ st.
Proof. exact (elem_of_filter (λ q, ¬ below p q) st q). Qed.

(** X8. "Reset" twice is "Reset" once.  After a reset that ran to its end (it
    does whenever [_plane] is bound) a second reset runs to its end and
    changes nothing: object, stage and tasks are what the first left. *)
Theorem reset_simulation_idempotent w :
  _plane (self w) ≠ Unset →
  snd (reset_simulation w) = Normal tt
  ∧ reset_simulation (fst (reset_simulation w)) = (fst (reset_simulation w), Normal tt).
Proof.
  destruct w as [[run h v g dt e tm sph pl xf lb] st ts].
  cbn [self _plane]. intros Hpl.
  destruct pl as [| pl]; [congruence |].
  py_unfold.
  destruct tm, sph, pl; py_norm.
  all: repeat (case_bool_decide; py_norm).
  all: try (split; reflexivity).
  all: exfalso;
    repeat match goal with
           | Hin : _ ∈ filter _ _ |- _ => apply elem_of_after_remove in Hin; destruct Hin
           | Hnin : _ ∉ filter _ _ |- _ => rewrite elem_of_after_remove in Hnin
           end; tauto.
Qed.

(** ** The task pool *)

(** What each method does to the task pool, whether or not it raises. *)
Lemma start_simulation_tasks w :
  tasks (fst (start_simulation w)) =
    if _running (self w) then tasks w else (tasks w ++ [Created])%list.
Proof.
  destruct w as [[run h v g dt e tm sph pl xf lb] st ts].
  py_unfold. destruct run, sph; py_norm; repeat (case_bool_decide; py_norm);
    reflexivity.
Qed.

Lemma start_simulation_xform w :
  xform (self (fst (start_simulation w))) = Bound sphere_prim_path.
Proof.
  destruct w as [[run h v g dt e tm sph pl xf lb] st ts].
  py_unfold. destruct run, sph; py_norm; repeat (case_bool_decide; py_norm);
    reflexivity.
Qed.

Lemma reset_simulation_tasks w :
  tasks (fst (reset_simulation w)) =
    match _timer (self w) with
    | Some t => match tasks w !! t with
                | Some c => if alive c then <[t := Cancelled]> (tasks w) else tasks w
                | None => tasks w
                end
    | None => tasks w
    end.
Proof.
  destruct w as [[run h v g dt e tm sph pl xf lb] st ts].
  py_unfold. destruct tm, sph, pl as [| [pl |]]; py_norm;
    repeat (case_bool_decide; py_norm); reflexivity.
Qed.

Lemma reset_simulation_xform w :
  xform (self (fst (reset_simulation w))) = xform (self w).
Proof.
  destruct w as [[run h v g dt e tm sph pl xf lb] st ts].
  py_unfold. destruct tm, sph, pl as [| [pl |]]; py_norm;
    repeat (case_bool_decide; py_norm); reflexivity.
Qed.

Lemma change_sphere_color_self_tasks w :
  self (fst (change_sphere_color w)) = self w
  ∧ tasks (fst (change_sphere_color w)) = tasks w.
Proof.
  destruct w as [[run h v g dt e tm sph pl xf lb] st ts].
  py_unfold. destruct sph; py_norm;
    repeat (case_bool_decide; py_norm); split; reflexivity.
Qed.

Lemma change_ground_color_self_tasks w :
  self (fst (change_ground_color w)) = self w
  ∧ tasks (fst (change_ground_color w)) = tasks w.
Proof.
  destruct w as [[run h v g dt e tm sph pl xf lb] st ts].
  py_unfold. destruct pl as [| [pl |]]; py_norm;
    repeat (case_bool_decide; py_norm); split; reflexivity.
Qed.

(** The two ways a sleeping task can go: the body runs to its end and the
    loop test decides, or line 152 raises and the task ends. *)
Lemma resume_sleeping_cases w i :
  tasks w !! i = Some Sleeping →
  resume i w = (loop_head i (mkWorld (tick (self w)) (stage w) (tasks w)), Normal tt)
  ∨ resume i w =
      (mkWorld (run_simulation_step (self w)) (stage w) (<[i := Failed]> (tasks w)),
       Normal tt).
Proof.
  intros Hi. destruct (xform (self w)) as [| p] eqn:Hx.
  - right. apply resume_sleeping_unset; assumption.
  - destruct (decide (p ∈ stage w)) as [Hp | Hp].
    + left. apply (resume_sleeping w i p); assumption.
    + right. apply (resume_sleeping_removed w i p); assumption.
Qed.

(** A turn of the loop rewrites at most the slot of the task it is given
    to, and never makes a task pending that was not. *)
Lemma resume_tasks w i :
  tasks (fst (resume i w)) = tasks w
  ∨ ∃ c c', tasks w !! i = Some c ∧ alive c = true
            ∧ (c' = Failed ∨ c' = if _running (self w) then Sleeping else Finished)
            ∧ tasks (fst (resume i w)) = <[i := c']> (tasks w).
Proof.
  destruct (tasks w !! i) as [[| | | |] |] eqn:Hi;
    try (left; unfold resume; rewrite Hi; reflexivity).
  - right. exists Created, (if _running (self w) then Sleeping else Finished).
    rewrite (resume_created w i Hi). repeat split. right. reflexivity.
  - right. destruct (resume_sleeping_cases w i Hi) as [-> | ->].
    + exists Sleeping, (if _running (self w) then Sleeping else Finished).
      unfold loop_head. cbn [fst self tasks]. rewrite tick_running.
      repeat split. right. reflexivity.
    + exists Sleeping, Failed. repeat split. left. reflexivity.
Qed.

Lemma resume_xform w i : xform (self (fst (resume i w))) = xform (self w).
Proof.
  destruct (tasks w !! i) as [[| | | |] |] eqn:Hi;
    try (unfold resume; rewrite Hi; reflexivity).
  destruct (resume_sleeping_cases w i Hi) as [-> | ->].
  - unfold loop_head. cbn [fst self]. apply tick_xform.
  - cbn [fst self]. apply step_xform.
Qed.

(** Counting the pending tasks after one slot was rewritten. *)
Lemma alive_count_insert l (i : nat) c c' :
  l !! i = Some c →
  (alive c' = true → alive c = true) →
  (length (filter (λ c, alive c = true) (<[i := c']> l))
   ≤ length (filter (λ c, alive c = true) l))%nat.
Proof.
  revert i. induction l as [| x l IH]; intros i Hi Hc; [discriminate |].
  destruct i as [| i]; cbn [insert list_insert] in *.
  - injection Hi as ->. rewrite !filter_cons.
    destruct (alive c') eqn:Hc'.
    + rewrite Hc by reflexivity. reflexivity.
    + destruct (decide (false = true)); [discriminate |].
      destruct (decide (alive c = true)); cbn [length];
        [apply le_S, le_n | apply le_n].
  - change (<[S i := c']> (x :: l)) with (x :: <[i := c']> l).
    rewrite !filter_cons. specialize (IH i Hi Hc).
    destruct (decide (alive x = true)); cbn [length];
      [apply le_n_S, IH | exact IH].
Qed.

(** X9. Only "Start" spawns, one task at a time and only under a lowered
    flag.  "Start" raises the number of pending tasks by one when the flag
    is down and leaves it alone when the flag is up; no other click and no
    turn of the loop ever raises it. *)
Theorem only_start_spawns w e :
  match e with
  | Click Start =>
      active (fst (fire e w)) = (active w + (if _running (self w) then 0 else 1))%nat
  | _ => (active (fst (fire e w)) ≤ active w)%nat
  end.
Proof.
  unfold active. destruct e as [[| | | |] | i]; cbn [fire clicked_fn].
  - rewrite start_simulation_tasks. destruct (_running (self w)); [lia |].
    rewrite filter_app, length_app. reflexivity.
  - reflexivity.
  - rewrite reset_simulation_tasks.
    destruct (_timer (self w)) as [t |]; [| reflexivity].
    destruct (tasks w !! t) as [c |] eqn:Ht; [| reflexivity].
    destruct (alive c) eqn:Hc; [| reflexivity].
    apply (alive_count_insert _ _ c); [assumption | discriminate].
  - destruct (change_sphere_color_self_tasks w) as [_ ->]. reflexivity.
  - destruct (change_ground_color_self_tasks w) as [_ ->]. reflexivity.
  - destruct (resume_tasks w i) as [-> | (c & c' & Hi & Hc & _ & ->)];
      [reflexivity |].
    apply (alive_count_insert _ _ c); [assumption | intros _; exact Hc].
Qed.

Lemma play_snoc es e w : play (es ++ [e]) w = fst (fire e (play es w)).
Proof. unfold play. rewrite fold_left_app. reflexivity. Qed.

(** X10. The body never meets a missing [xform].  [on_startup] does not
    assign [xform], but in every history from startup a task exists only
    after [create_sphere] has assigned it: whenever the pool holds a task,
    [xform] is the transform of the sphere and the body does not raise
    [AttributeError]. *)
Theorem loop_body_always_finds_xform (st : gset path) (es : list event) :
  let w : World T := play es (on_startup st) in
  tasks w = []
  ∨ (xform (self w) = Bound sphere_prim_path
     ∧ ∀ name, snd (run_simulation_body w) ≠ Raised (AttributeError name)).
Proof.
  intros w.
  assert (Hinv : tasks w = [] ∨ xform (self w) = Bound sphere_prim_path).
  { subst w. induction es as [| e es IH] using rev_ind; [left; reflexivity |].
    rewrite play_snoc. set (w := play es (on_startup st)) in *.
    destruct e as [[| | | |] | i]; cbn [fire clicked_fn].
    - right. apply start_simulation_xform.
    - exact IH.
    - rewrite reset_simulation_tasks, reset_simulation_xform.
      destruct IH as [Hnil | Hx]; [| right; assumption].
      left. rewrite Hnil. destruct (_timer (self w)); reflexivity.
    - destruct (change_sphere_color_self_tasks w) as [-> ->]. exact IH.
    - destruct (change_ground_color_self_tasks w) as [-> ->]. exact IH.
    - rewrite resume_xform.
      destruct IH as [Hnil | Hx]; [| right; assumption].
      left. destruct (resume_tasks w i) as [-> | (c & c' & Hi & _)];
        [assumption |].
      rewrite Hnil in Hi. discriminate. }
  destruct Hinv as [Hnil | Hx]; [left; assumption | right].
  split; [assumption |].
  intros name. py_unfold. cbn [self stage tasks]. rewrite step_xform, Hx.
  case_bool_decide; discriminate.
Qed.

(** ** The stage *)

Lemma step_sphere s : _sphere (run_simulation_step s) = _sphere s.
Proof. step_fields. Qed.

Lemma step_plane s : _plane (run_simulation_step s) = _plane s.
Proof. step_fields. Qed.

(** A turn of the loop touches neither the stage nor the two handles. *)
Lemma resume_handles w i :
  stage (fst (resume i w)) = stage w
  ∧ _sphere (self (fst (resume i w))) = _sphere (self w)
  ∧ _plane (self (fst (resume i w))) = _plane (self w).
Proof.
  destruct (tasks w !! i) as [[| | | |] |] eqn:Hi;
    try (unfold resume; rewrite Hi; repeat split; reflexivity).
  destruct (resume_sleeping_cases w i Hi) as [-> | ->].
  - unfold loop_head, tick. cbn [fst self stage set_label _sphere _plane].
    rewrite step_sphere, step_plane. repeat split; reflexivity.
  - cbn [fst self stage]. rewrite step_sphere, step_plane.
    repeat split; reflexivity.
Qed.

(** The prims above the five paths the extension defines. *)
Lemma ancestors_of_our_paths :
  ancestors sphere_prim_path = [world_prim_path]
  ∧ ancestors plane_prim_path = [world_prim_path]
  ∧ ancestors "/World/bouncing_sphere/color_shader" = [world_prim_path; sphere_prim_path]
  ∧ ancestors "/World/bouncing_sphere/material" = [world_prim_path; sphere_prim_path]
  ∧ ancestors "/World/ground_plane/color_shader" = [world_prim_path; plane_prim_path]
  ∧ ancestors "/World/ground_plane/color_material" = [world_prim_path; plane_prim_path].
Proof. repeat split. Qed.

Ltac our_ancestors :=
  let A1 := fresh in let A2 := fresh in let A3 := fresh in
  let A4 := fresh in let A5 := fresh in let A6 := fresh in
  destruct ancestors_of_our_paths as (A1 & A2 & A3 & A4 & A5 & A6);
  rewrite ?A1, ?A2, ?A3, ?A4, ?A5, ?A6; clear A1 A2 A3 A4 A5 A6.

(** The paths the extension uses, one against the other. *)
Ltac below_facts :=
  assert (below sphere_prim_path sphere_prim_path) by (left; reflexivity);
  assert (below plane_prim_path plane_prim_path) by (left; reflexivity);
  assert (¬ below sphere_prim_path plane_prim_path)
    by (intros [? | ?]; discriminate);
  assert (¬ below plane_prim_path sphere_prim_path)
    by (intros [? | ?]; discriminate);
  assert (¬ below sphere_prim_path world_prim_path)
    by (intros [? | ?]; discriminate);
  assert (¬ below plane_prim_path world_prim_path)
    by (intros [? | ?]; discriminate);
  assert (below sphere_prim_path "/World/bouncing_sphere/color_shader")
    by (right; reflexivity);
  assert (below sphere_prim_path "/World/bouncing_sphere/material")
    by (right; reflexivity);
  assert (below plane_prim_path "/World/ground_plane/color_shader")
    by (right; reflexivity);
  assert (below plane_prim_path "/World/ground_plane/color_material")
    by (right; reflexivity).

#[local] Set Warnings "-clear-no-such-hyp".

(** Membership goals about a stage built by [Define] and [RemovePrim]. *)
Ltac stage_solver :=
  repeat match goal with
         | Hh : Some _ = Some _ |- _ => injection Hh as Hh; try subst
         | Hh : Bound _ = Bound _ |- _ => injection Hh as Hh; try subst
         | Hh : _ ∨ _ |- _ => destruct Hh as [Hh | Hh]; try discriminate
         end;
  repeat split; try (intros ?); set_unfold; naive_solver.

Lemma fire_keeps_tidy (st : gset path) w e :
  (∀ q, q ∈ st → ¬ below sphere_prim_path q ∧ ¬ below plane_prim_path q) →
  tidy st w → tidy st (fst (fire e w)).
Proof.
  intros Hst Htidy. below_facts.
  destruct e as [[| | | |] | i]; cbn [fire clicked_fn].
  1-5: destruct w as [[run h v g dt e tm sph pl xf lb] stg ts];
       unfold tidy in *; destruct Htidy as (Ha & Hb & Hsph & Hpl);
       cbn [self stage _sphere _plane] in *.
  - py_unfold. our_ancestors.
    destruct run, sph; py_norm; repeat (case_bool_decide; py_norm);
      stage_solver.
  - py_unfold. py_norm. stage_solver.
  - py_unfold. destruct tm, sph, pl as [| [pl |]]; py_norm;
      repeat (case_bool_decide; py_norm); stage_solver.
  - py_unfold. our_ancestors.
    destruct sph; py_norm; repeat (case_bool_decide; py_norm);
      stage_solver.
  - py_unfold. our_ancestors.
    destruct pl as [| [pl |]]; py_norm;
      repeat (case_bool_decide; py_norm); stage_solver.
  - unfold tidy in *. destruct (resume_handles w i) as (-> & -> & ->).
    exact Htidy.
Qed.

Lemma play_keeps_tidy (st : gset path) es :
  (∀ q, q ∈ st → ¬ below sphere_prim_path q ∧ ¬ below plane_prim_path q) →
  tidy (T:=T) st (play es (on_startup st)).
Proof.
  intros Hst. induction es as [| e es IH] using rev_ind.
  - unfold tidy, play. cbn. repeat split; auto.
  - rewrite play_snoc. apply fire_keeps_tidy; assumption.
Qed.

(** After [reset_simulation], however it ends, neither handle is live. *)
Lemma reset_simulation_handles_dead w :
  let w' := fst (reset_simulation w) in
  ¬ (_sphere (self w') = Some sphere_prim_path ∧ sphere_prim_path ∈ stage w')
  ∧ ¬ (_plane (self w') = Bound (Some plane_prim_path) ∧ plane_prim_path ∈ stage w').
Proof.
  destruct w as [[run h v g dt e tm sph pl xf lb] stg ts].
  py_unfold. destruct tm, sph, pl as [| [pl |]]; py_norm;
    repeat (case_bool_decide; py_norm);
    split; intros [Heq Hin]; try discriminate;
    try (injection Heq as ->); set_unfold; naive_solver.
Qed.



(** X13. "Start" makes a fresh sphere.  When the sphere is on the stage,
    [start_simulation] removes it with everything below it and defines it
    again: the colour shader and material of the sphere are gone, the
    sphere and the plane are on the stage, every prim that is neither the
    sphere nor below it stays, and nothing but the sphere, the plane and
    the prim [/World] above them is added. *)
Theorem start_simulation_recreates_sphere w :
  _sphere (self w) = Some sphere_prim_path →
  sphere_prim_path ∈ stage w →
  let w' := fst (start_simulation w) in
  sphere_prim_path ∈ stage w'
  ∧ plane_prim_path ∈ stage w'
  ∧ ("/World/bouncing_sphere/color_shader" ∉ stage w')
  ∧ ("/World/bouncing_sphere/material" ∉ stage w')
  ∧ (∀ q, q ∈ stage w → ¬ below sphere_prim_path q → q ∈ stage w')
  ∧ (∀ q, q ∈ stage w' →
       q ∈ stage w ∨ q = sphere_prim_path ∨ q = plane_prim_path
       ∨ q = world_prim_path).
Proof.
  destruct w as [[run h v g dt e tm sph pl xf lb] stg ts].
  cbn [self stage _sphere]. intros -> Hin. below_facts.
  py_unfold. our_ancestors. py_norm.
  rewrite bool_decide_eq_true_2 by assumption.
  destruct run; py_norm; repeat split; try (intros ?); set_unfold;
    naive_solver.
Qed.

(** X14. [on_shutdown] cancels the task [_timer] names and nothing else.  It
    never raises and leaves the object, the flag included, and the stage
    as they were; the task [_timer] names is not pending afterwards, and
    every other task is in the state it was in. *)
Theorem on_shutdown_cancels_only_the_timer_task w :
  let w' := fst (on_shutdown w) in
  snd (on_shutdown w) = Normal tt
  ∧ self w' = self w
  ∧ stage w' = stage w
  ∧ (∀ t c, _timer (self w) = Some t → tasks w' !! t = Some c → alive c = false)
  ∧ (∀ j, _timer (self w) ≠ Some j → tasks w' !! j = tasks w !! j).
Proof.
  destruct w as [[run h v g dt e tm sph pl xf lb] stg ts].
  unfold on_shutdown. py_unfold. py_norm.
  destruct tm as [t |]; py_norm; [| repeat split; congruence].
  destruct (ts !! t) as [c0 |] eqn:Ht; py_norm;
    [destruct (alive c0) eqn:Hc0; py_norm |].
  - repeat split.
    + intros t' c [= <-].
      rewrite list_lookup_insert_eq by (eapply lookup_lt_Some, Ht).
      intros [= <-]. reflexivity.
    + intros j Hj. apply list_lookup_insert_ne. congruence.
  - repeat split. intros t' c [= <-]. rewrite Ht. intros [= <-]. exact Hc0.
  - repeat split. intros t' c [= <-]. rewrite Ht. discriminate.
Qed.

(** ** Coming to a stop *)

Lemma resume_running w i : _running (self (fst (resume i w))) = _running (self w).
Proof.
  destruct (tasks w !! i) as [[| | | |] |] eqn:Hi;
    try (unfold resume; rewrite Hi; reflexivity).
  destruct (resume_sleeping_cases w i Hi) as [-> | ->].
  - unfold loop_head. cbn [fst self]. apply tick_running.
  - cbn [fst self]. apply step_running.
Qed.

(** Under a lowered flag a turn of the loop ends the task it is given to
    and leaves the other slots alone. *)
Lemma resume_under_lowered_flag w i :
  _running (self w) = false →
  (∀ c, tasks (fst (resume i w)) !! i = Some c → alive c = false)
  ∧ (∀ j, j ≠ i → tasks (fst (resume i w)) !! j = tasks w !! j).
Proof.
  intros Hr.
  destruct (resume_tasks w i) as [Heq | (c0 & c' & Hi & Hc0 & Hc' & Heq)];
    rewrite Heq.
  - split; [| reflexivity]. intros c Hc.
    destruct (alive c) eqn:Hal; [| reflexivity]. exfalso.
    assert (Hres : tasks (fst (resume i w)) !! i = Some c) by (rewrite Heq; exact Hc).
    destruct c; try discriminate.
    + rewrite (resume_created w i Hc) in Hres. unfold loop_head in Hres.
      cbn [fst tasks] in Hres. rewrite Hr in Hres.
      rewrite list_lookup_insert_eq in Hres by (eapply lookup_lt_Some, Hc).
      discriminate.
    + destruct (resume_sleeping_cases w i Hc) as [Hrs | Hrs];
        rewrite Hrs in Hres; unfold loop_head in Hres; cbn [fst tasks self] in Hres;
        rewrite ?tick_running, ?Hr in Hres;
        rewrite list_lookup_insert_eq in Hres by (eapply lookup_lt_Some, Hc);
        discriminate.
  - assert (Hlt : (i < length (tasks w))%nat) by (eapply lookup_lt_Some, Hi).
    split.
    + intros c. rewrite list_lookup_insert_eq by assumption. intros [= <-].
      rewrite Hr in Hc'. destruct Hc' as [-> | ->]; reflexivity.
    + intros j Hj. apply list_lookup_insert_ne. congruence.
Qed.

Lemma play_app es1 es2 w : play (es1 ++ es2) w = play es2 (play es1 w).
Proof. unfold play. apply fold_left_app. Qed.

(** After a turn for each of the first [k] tasks under a lowered flag,
    none of them is pending and the flag is still down. *)
Lemma wake_each_under_lowered_flag k : ∀ w,
  _running (self w) = false →
  let w' := play (map Wake (seq 0 k)) w in
  _running (self w') = false
  ∧ (∀ j c, (j < k)%nat → tasks w' !! j = Some c → alive c = false)
  ∧ (∀ j, (k ≤ j)%nat → tasks w' !! j = tasks w !! j).
Proof.
  induction k as [| k IH]; intros w Hr.
  - cbn. repeat split; [assumption | intros; lia].
  - rewrite seq_S, map_app, play_app. cbn [map play fold_left fire plus].
    destruct (IH w Hr) as (Hr' & Hdead & Hrest).
    set (w1 := play (map Wake (seq 0 k)) w) in *.
    unfold play. cbn [fold_left fire].
    destruct (resume_under_lowered_flag w1 k Hr') as [Hk Hother].
    split; [rewrite resume_running; exact Hr' |]. split.
    + intros j c Hj. destruct (decide (j = k)) as [-> | Hne].
      * apply Hk.
      * rewrite Hother by assumption. apply Hdead. lia.
    + intros j Hj. rewrite Hother by lia. apply Hrest. lia.
Qed.

Lemma wakes_keep_length k w :
  length (tasks (play (map Wake (seq 0 k)) w)) = length (tasks w).
Proof.
  induction k as [| k IH]; [reflexivity |].
  rewrite seq_S, map_app, play_app. unfold play at 1.
  cbn [map fold_left fire plus].
  destruct (resume_tasks (play (map Wake (seq 0 k)) w) k)
    as [-> | (c & c' & _ & _ & _ & ->)]; rewrite ?length_insert; apply IH.
Qed.

(** X6. "Stop" stops the loop.  After "Stop" and one turn of the loop for
    each task of the pool, no task is pending any more and the flag is
    down: each task that was pending ran the body at most once more and
    returned. *)
Theorem stop_then_a_turn_each_ends_every_task w :
  let w' := play (Click Stop :: map Wake (seq 0 (length (tasks w)))) w in
  active w' = 0%nat
  ∧ _running (self w') = false
  ∧ length (tasks w') = length (tasks w).
Proof.
  intros w'.
  set (w0 := fst (stop_simulation w)).
  assert (Hw' : w' = play (map Wake (seq 0 (length (tasks w0)))) w0) by reflexivity.
  destruct (wake_each_under_lowered_flag (length (tasks w0)) w0 eq_refl)
    as (Hr & Hdead & _).
  rewrite <- Hw' in Hr, Hdead.
  assert (Hlen : length (tasks w') = length (tasks w0))
    by (rewrite Hw'; apply wakes_keep_length).
  split; [| split; [exact Hr | exact Hlen]].
  unfold active.
  assert (Hall : ∀ j c, tasks w' !! j = Some c → alive c = false).
  { intros j c Hj. apply (Hdead j c); [| exact Hj].
    rewrite <- Hlen. eapply lookup_lt_Some, Hj. }
  clear -Hall. induction (tasks w') as [| c l IH]; [reflexivity |].
  rewrite filter_cons.
  destruct (decide (alive c = true)) as [Hc | _].
  - rewrite (Hall 0%nat c eq_refl) in Hc. discriminate.
  - apply IH. intros j c' Hj. apply (Hall (S j) c'). exact Hj.
Qed.

End Lifecycle.

(** ** Witnesses *)

Section LifecycleWitnesses.
Local Open Scope Q_scope.


Lemma reset_cancels_the_scheduled_pass_witness :
  let w : World Q := mid_run (ball 20 0 (-10) (1 # 2) (1 # 2)) in
  let w1 := fst (reset_simulation w) in
  _timer (self w) = Some 0%nat
  ∧ tasks w !! 0%nat = Some Sleeping
  ∧ alive Sleeping = true
  ∧ tasks w1 = <[0%nat := Cancelled]> (tasks w)
  ∧ _running (self w1) = false
  ∧ _timer (self w1) = None
  ∧ resume 0 w1 = (w1, Normal tt).
Proof.
  intros w w1.
  assert (Ht : _timer (self w) = Some 0%nat) by reflexivity.
  assert (Hi : tasks w !! 0%nat = Some Sleeping) by reflexivity.
  assert (Hc : alive Sleeping = true) by reflexivity.
  split; [exact Ht |].
  split; [exact Hi |].
  split; [exact Hc |].
  exact (reset_cancels_the_scheduled_pass w 0 Sleeping Ht Hi Hc).
Defined.

Lemma reset_simulation_idempotent_witness :
  let w : World Q := mid_run (ball 20 0 (-10) (1 # 2) (1 # 2)) in
  _plane (self w) ≠ Unset
  ∧ snd (reset_simulation w) = Normal tt
  ∧ reset_simulation (fst (reset_simulation w)) = (fst (reset_simulation w), Normal tt).
Proof.
  intros w.
  assert (Hp : _plane (self w) ≠ Unset) by discriminate.
  split; [exact Hp |].
  exact (reset_simulation_idempotent w Hp).
Defined.

(** A host stage with prims of its own. *)
Lemma host_prims_are_not_ours :
  ∀ q, q ∈ ({[world_prim_path; "/World/Camera"]} : gset path) →
    ¬ below sphere_prim_path q ∧ ¬ below plane_prim_path q.
Proof.
  intros q Hq. apply elem_of_union in Hq as [Hq | Hq];
    apply elem_of_singleton in Hq; subst q;
    split; intros [? | ?]; discriminate.
Defined.



Lemma start_simulation_recreates_sphere_witness :
  let w : World Q :=
    mkWorld (ball 20 0 (-10) (1 # 2) (1 # 2))
      ({[world_prim_path; sphere_prim_path;
         "/World/bouncing_sphere/color_shader";
         "/World/bouncing_sphere_2";
         "/World/ground_plane/color_shader"]})
      [Sleeping] in
  let w' := fst (start_simulation w) in
  _sphere (self w) = Some sphere_prim_path
  ∧ sphere_prim_path ∈ stage w
  ∧ sphere_prim_path ∈ stage w'
  ∧ plane_prim_path ∈ stage w'
  ∧ ("/World/bouncing_sphere/color_shader" ∉ stage w')
  ∧ ("/World/bouncing_sphere/material" ∉ stage w')
  ∧ (∀ q, q ∈ stage w → ¬ below sphere_prim_path q → q ∈ stage w')
  ∧ (∀ q, q ∈ stage w' →
       q ∈ stage w ∨ q = sphere_prim_path ∨ q = plane_prim_path
       ∨ q = world_prim_path).
Proof.
  intros w w'.
  assert (Hs : _sphere (self w) = Some sphere_prim_path) by reflexivity.
  assert (Hin : sphere_prim_path ∈ stage w) by (cbn [stage]; set_solver).
  split; [exact Hs |].
  split; [exact Hin |].
  exact (start_simulation_recreates_sphere w Hs Hin).
Defined.

End LifecycleWitnesses.
